(** * BIM production variants: linear reformulations handed to an LP solver

    A verification development for the two notebooks

      - [notebooks/02/04-bim-maxmin.ipynb]     (maximin objective)
      - [notebooks/02/05-bim-fractional.ipynb] (fractional objective)

    The notebooks build Pyomo [ConcreteModel]s and pass them to an external
    linear-programming solver.  The models are embedded as data (named
    components holding expression trees with rational coefficients, as the
    Python code writes them); their meaning is given over the real numbers,
    the domain Pyomo's [Reals], [NonNegativeReals] and [PositiveReals]
    denote.  Python evaluates the literals [7 / 6] and [5 / 6] before Pyomo
    sees them; they are read here as the exact rationals [7 # 6], [5 # 6]. *)

From Stdlib Require Import Reals QArith Qreals Lra List String.
Import ListNotations.

Local Open Scope string_scope.
Local Open Scope R_scope.

(** ** The fragment of Pyomo the notebooks use *)

Module Pyomo.

(** [pyo.Var(domain=...)]; a [pyo.Var()] without argument has domain
    [Reals]. *)
Inductive domain : Type :=
| AnyReals
| NonNegativeReals
| PositiveReals.

Inductive sense : Type :=
| minimize
| maximize.

(** Expression trees, as Python's operator overloading builds them. *)
Inductive expr : Type :=
| Num (q : Q)
| Ref (v : string)
| Plus (a b : expr)
| Minus (a b : expr)
| Times (a b : expr)
| Over (a b : expr).

(** Relational expressions: [a <= b] and [a == b]. *)
Inductive relation : Type :=
| Le (a b : expr)
| Eq (a b : expr).

(** What an attribute of a model can hold. *)
Inductive component : Type :=
| Var (d : domain)
| Expression (e : expr)
| Objective (s : sense) (e : expr)
| Constraint (r : relation)
| ConstraintList (rs : list relation)
| Attr (q : Q).

Record model : Type := mk_model {
  name : string;
  components : list (string * component)
}.

(** [pyo.ConcreteModel(name)] *)
Definition ConcreteModel (n : string) : model := mk_model n [].

(** [m.attr = c]: components are kept in declaration order. *)
Definition setattr (m : model) (attr : string) (c : component) : model :=
  mk_model (name m) (components m ++ [(attr, c)]).

(** [m.attr.add(expr=r)] on a [ConstraintList]: the relation is appended to
    the list held by that attribute; other components are untouched. *)
Definition add_to (attr : string) (r : relation)
    (nc : string * component) : string * component :=
  match nc with
  | (n, ConstraintList rs) =>
      if String.eqb n attr then (n, ConstraintList (rs ++ [r])) else nc
  | _ => nc
  end.

Definition ConstraintList_add (m : model) (attr : string) (r : relation)
    : model :=
  mk_model (name m) (map (add_to attr r) (components m)).

(** *** Meaning over the reals *)

Definition valuation : Type := string -> R.

Fixpoint eval (rho : valuation) (e : expr) : R :=
  match e with
  | Num q => Q2R q
  | Ref v => rho v
  | Plus a b => eval rho a + eval rho b
  | Minus a b => eval rho a - eval rho b
  | Times a b => eval rho a * eval rho b
  | Over a b => eval rho a / eval rho b
  end.

Definition holds (rho : valuation) (r : relation) : Prop :=
  match r with
  | Le a b => eval rho a <= eval rho b
  | Eq a b => eval rho a = eval rho b
  end.

Definition in_domain (d : domain) (x : R) : Prop :=
  match d with
  | AnyReals => True
  | NonNegativeReals => 0 <= x
  | PositiveReals => 0 < x
  end.

Definition component_ok (rho : valuation) (nc : string * component) : Prop :=
  match nc with
  | (n, Var d) => in_domain d (rho n)
  | (_, Constraint r) => holds rho r
  | (_, ConstraintList rs) => Forall (holds rho) rs
  | _ => True
  end.

(** A valuation is feasible when every variable lies in its domain and every
    constraint of the model holds. *)
Definition feasible (m : model) (rho : valuation) : Prop :=
  Forall (component_ok rho) (components m).

Fixpoint find_objective (cs : list (string * component))
    : option (sense * expr) :=
  match cs with
  | [] => None
  | (_, Objective s e) :: _ => Some (s, e)
  | _ :: cs' => find_objective cs'
  end.

(** [pyo.value(m.profit)] at a valuation (0 for a model without
    objective). *)
Definition objective_value (m : model) (rho : valuation) : R :=
  match find_objective (components m) with
  | Some (_, e) => eval rho e
  | None => 0
  end.

Definition objective_sense (m : model) : option sense :=
  option_map fst (find_objective (components m)).

(** Declared variables with their domains, in declaration order. *)
Fixpoint declared_vars (cs : list (string * component))
    : list (string * domain) :=
  match cs with
  | [] => []
  | (n, Var d) :: cs' => (n, d) :: declared_vars cs'
  | _ :: cs' => declared_vars cs'
  end.

(** All relations of the model, in declaration order. *)
Fixpoint relations (cs : list (string * component)) : list relation :=
  match cs with
  | [] => []
  | (_, Constraint r) :: cs' => r :: relations cs'
  | (_, ConstraintList rs) :: cs' => rs ++ relations cs'
  | _ :: cs' => relations cs'
  end.

(** What the solver is asked for: a feasible valuation that no feasible
    valuation beats. All models of the notebooks maximize. *)
Definition is_maximizer (m : model) (rho : valuation) : Prop :=
  feasible m rho /\
  forall rho', feasible m rho' -> objective_value m rho' <= objective_value m rho.

Definition optimal_value (m : model) (v : R) : Prop :=
  exists rho, is_maximizer m rho /\ objective_value m rho = v.

(** Every feasible objective value is at most [u]. *)
Definition upper_bound (m : model) (u : R) : Prop :=
  forall rho, feasible m rho -> objective_value m rho <= u.

(** The expression an attribute holds ([Num 0] if it holds none). *)
Fixpoint attr_expr (cs : list (string * component)) (attr : string) : expr :=
  match cs with
  | [] => Num 0
  | (n, c) :: cs' =>
      if String.eqb n attr then
        match c with
        | Expression e | Objective _ e => e
        | Attr q => Num q
        | Var _ => Ref n
        | _ => Num 0
        end
      else attr_expr cs' attr
  end.

Definition pyo_value (m : model) (attr : string) (rho : valuation) : R :=
  eval rho (attr_expr (components m) attr).

(** Every declared variable is non-negative at every feasible point. *)
Definition all_vars_nonneg (m : model) : Prop :=
  forall rho, feasible m rho ->
  forall n d, In (n, d) (declared_vars (components m)) -> 0 <= rho n.

(** A valuation given by a finite table; unlisted names read 0. *)
Fixpoint valuation_of (tbl : list (string * R)) : valuation :=
  fun v =>
    match tbl with
    | [] => 0
    | (n, x) :: tbl' => if String.eqb v n then x else valuation_of tbl' v
    end.

End Pyomo.

Import Pyomo.

(** ** The BIM production region

    Both notebooks recall the same original problem: plans [(a, b)] of logic
    and memory chips within the silicon, germanium, plastic and copper
    budgets.  This is the statement of the text, against which the models
    built by the code are compared. *)

Module BIM.

Definition BIM_region (a b : R) : Prop :=
  0 <= a /\ 0 <= b /\
  a <= 1000 /\ b <= 1500 /\ a + b <= 1750 /\ 4 * a + 2 * b <= 4800.

(** [v] is the largest value of [f] over the region, and it is attained. *)
Definition max_over_region (f : R -> R -> R) (v : R) : Prop :=
  (exists a b, BIM_region a b /\ f a b = v) /\
  (forall a b, BIM_region a b -> f a b <= v).

End BIM.

Import BIM.

(** ** Notebook 2.5: revenues minus costs, revenues over costs *)

Module Fractional.

Definition BIM_with_revenues_minus_costs : model :=
  let m := ConcreteModel "BIM with revenues minus costs" in
  let m := setattr m "x1" (Var NonNegativeReals) in
  let m := setattr m "x2" (Var NonNegativeReals) in
  let revenue :=
    Plus (Times (Num 12) (Ref "x1")) (Times (Num 9) (Ref "x2")) in
  let m := setattr m "revenue" (Expression revenue) in
  let variable_cost :=
    Plus (Times (Num (7 # 6)) (Ref "x1")) (Times (Num (5 # 6)) (Ref "x2")) in
  let m := setattr m "variable_cost" (Expression variable_cost) in
  let m := setattr m "fixed_cost" (Attr 100) in
  let m := setattr m "profit"
    (Objective maximize (Minus (Minus revenue variable_cost) (Num 100))) in
  let m := setattr m "silicon" (Constraint (Le (Ref "x1") (Num 1000))) in
  let m := setattr m "germanium" (Constraint (Le (Ref "x2") (Num 1500))) in
  let m := setattr m "plastic"
    (Constraint (Le (Plus (Ref "x1") (Ref "x2")) (Num 1750))) in
  let m := setattr m "copper"
    (Constraint (Le (Plus (Times (Num 4) (Ref "x1")) (Times (Num 2) (Ref "x2")))
                    (Num 4800))) in
  m.

Definition BIM_with_revenues_over_costs : model :=
  let m := ConcreteModel "BIM with revenues over costs" in
  let m := setattr m "y1" (Var NonNegativeReals) in
  let m := setattr m "y2" (Var NonNegativeReals) in
  let m := setattr m "t" (Var PositiveReals) in
  let revenue :=
    Plus (Times (Num 12) (Ref "y1")) (Times (Num 9) (Ref "y2")) in
  let m := setattr m "revenue" (Expression revenue) in
  let variable_cost :=
    Plus (Times (Num (7 # 6)) (Ref "y1")) (Times (Num (5 # 6)) (Ref "y2")) in
  let m := setattr m "variable_cost" (Expression variable_cost) in
  let m := setattr m "fixed_cost" (Attr 100) in
  let m := setattr m "profit" (Objective maximize revenue) in
  let m := setattr m "silicon"
    (Constraint (Le (Ref "y1") (Times (Num 1000) (Ref "t")))) in
  let m := setattr m "germanium"
    (Constraint (Le (Ref "y2") (Times (Num 1500) (Ref "t")))) in
  let m := setattr m "plastic"
    (Constraint (Le (Plus (Ref "y1") (Ref "y2")) (Times (Num 1750) (Ref "t")))) in
  let m := setattr m "copper"
    (Constraint (Le (Plus (Times (Num 4) (Ref "y1")) (Times (Num 2) (Ref "y2")))
                    (Times (Num 4800) (Ref "t")))) in
  let m := setattr m "frac"
    (Constraint (Eq (Plus variable_cost (Times (Num 100) (Ref "t"))) (Num 1))) in
  m.

(** The numbers the two [print] calls format, before formatting. *)
Record report : Type := mk_report {
  x1 : R;
  x2 : R;
  value : R;
  revenue : R;
  cost : R
}.

(** The report of the first cell, on the valuation the solver left in
    [BIM_linear]. *)
Definition BIM_linear_report (rho : valuation) : report :=
  let m := BIM_with_revenues_minus_costs in
  mk_report
    (pyo_value m "x1" rho)
    (pyo_value m "x2" rho)
    (pyo_value m "profit" rho)
    (pyo_value m "revenue" rho)
    (pyo_value m "variable_cost" rho + pyo_value m "fixed_cost" rho).

(** The report of the second cell: the original variables are recovered by
    dividing by [t]. *)
Definition BIM_fractional_report (rho : valuation) : report :=
  let m := BIM_with_revenues_over_costs in
  let t := pyo_value m "t" rho in
  mk_report
    (pyo_value m "y1" rho / t)
    (pyo_value m "y2" rho / t)
    (pyo_value m "profit" rho
       / (pyo_value m "variable_cost" rho + pyo_value m "fixed_cost" rho * t))
    (pyo_value m "revenue" rho / t)
    (pyo_value m "variable_cost" rho / t + pyo_value m "fixed_cost" rho).

(** The original fractional objective, as the text of the notebook states
    it: the efficiency ratio of a plan, revenues over costs. *)
Definition efficiency (a b : R) : R :=
  (12 * a + 9 * b) / (7 / 6 * a + 5 / 6 * b + 100).

(** *** Points the statements refer to *)

(** The plan the first cell reports. *)
Definition linear_optimum : valuation :=
  valuation_of [("x1", 650); ("x2", 1100)].

(** The solution of the linearized fractional model. *)
Definition fractional_optimum : valuation :=
  valuation_of [("y1", 30 / 197); ("y2", 180 / 197); ("t", 3 / 4925)].

(** The scaling that sends a plan to a point of the linearized model. *)
Definition scale_plan (a b : R) : valuation :=
  let d := 7 / 6 * a + 5 / 6 * b + 100 in
  valuation_of [("y1", a / d); ("y2", b / d); ("t", 1 / d)].

(** The linearized model as the text of the notebook writes it, with
    [t >= 0] where the code declares [t] in [PositiveReals]. *)
Definition linearized_text (rho : valuation) : Prop :=
  0 <= rho "y1" /\ 0 <= rho "y2" /\ 0 <= rho "t" /\
  rho "y1" <= 1000 * rho "t" /\ rho "y2" <= 1500 * rho "t" /\
  rho "y1" + rho "y2" <= 1750 * rho "t" /\
  4 * rho "y1" + 2 * rho "y2" <= 4800 * rho "t" /\
  7 / 6 * rho "y1" + 5 / 6 * rho "y2" + 100 * rho "t" = 1.

End Fractional.


(** ** Notebook 2.4: maximizing the lowest possible revenue *)

Module Maxmin.

(** The relation [m.z <= c1 * m.x1 + c2 * m.x2] of one loop iteration. *)
Definition maxmin_row (c : Q * Q) : relation :=
  let '(c1, c2) := c in
  Le (Ref "z") (Plus (Times (Num c1) (Ref "x1")) (Times (Num c2) (Ref "x2"))).

(** The body of the loop: [m.maxmin.add(expr=...)]. *)
Definition add_row (m : model) (c : Q * Q) : model :=
  ConstraintList_add m "maxmin" (maxmin_row c).

Definition BIM_maxmin (costs : list (Q * Q)) : model :=
  let m := ConcreteModel "BIM production planning with maxmin objective" in
  let m := setattr m "x1" (Var NonNegativeReals) in
  let m := setattr m "x2" (Var NonNegativeReals) in
  let m := setattr m "z" (Var AnyReals) in
  let m := setattr m "profit" (Objective maximize (Ref "z")) in
  let m := setattr m "maxmin" (ConstraintList []) in
  let m := fold_left add_row costs m in
  let m := setattr m "silicon" (Constraint (Le (Ref "x1") (Num 1000))) in
  let m := setattr m "germanium" (Constraint (Le (Ref "x2") (Num 1500))) in
  let m := setattr m "plastic"
    (Constraint (Le (Plus (Ref "x1") (Ref "x2")) (Num 1750))) in
  let m := setattr m "copper"
    (Constraint (Le (Plus (Times (Num 4) (Ref "x1")) (Times (Num 2) (Ref "x2")))
                    (Num 4800))) in
  m.

(** The price scenarios of the worked example. *)
Definition scenarios : list (Q * Q) := [(12, 9); (11, 10); (8, 11)]%Q.

(** The original maximin problem, as the text states it: the revenue of a
    plan under one price pair, and the lowest revenue over a list of price
    pairs (0 for the empty list, which has no minimum). *)
Definition revenue_at (a b : R) (c : Q * Q) : R :=
  Q2R (fst c) * a + Q2R (snd c) * b.

Fixpoint worst_case (costs : list (Q * Q)) (a b : R) : R :=
  match costs with
  | [] => 0
  | [c] => revenue_at a b c
  | c :: cs => Rmin (revenue_at a b c) (worst_case cs a b)
  end.

(** Does a relation mention the variable [v]? *)
Fixpoint mentions (v : string) (e : expr) : bool :=
  match e with
  | Num _ => false
  | Ref u => String.eqb u v
  | Plus a b | Minus a b | Times a b | Over a b =>
      mentions v a || mentions v b
  end.

Definition relation_mentions (v : string) (r : relation) : bool :=
  match r with
  | Le a b | Eq a b => mentions v a || mentions v b
  end.

(** The four resource constraints, as every model repeats them. *)
Definition resource_rows : list relation :=
  [ Le (Ref "x1") (Num 1000);
    Le (Ref "x2") (Num 1500);
    Le (Plus (Ref "x1") (Ref "x2")) (Num 1750);
    Le (Plus (Times (Num 4) (Ref "x1")) (Times (Num 2) (Ref "x2"))) (Num 4800) ].

(** A valuation of the three variables of [BIM_maxmin]. *)
Definition plan (a b z : R) : valuation :=
  valuation_of [("x1", a); ("x2", b); ("z", z)].

(** The plan the cell of notebook 2.4 reports. *)
Definition maxmin_optimum : valuation := plan (1750 / 3) (3500 / 3) 17500.

End Maxmin.

(** ** Running a notebook

    Code cells run top to bottom; an exception ends the run.  What a run
    does to the outside is recorded as a trace of events.  The solver is
    external: whether Colab is detected, whether the solver is available,
    how its availability check reports a missing solver, and which valuation
    [solve] leaves in a model are parameters of a run. *)

Module Notebook.

Inductive event : Type :=
| Pip (package : string)
| SolverFactory (solver : string)
| Available
| Solve (m : model)
| Print (numbers : list R).

(** [available] tells whether the solver is installed.  [available_raises]
    is what [SOLVER.available()] does when it is not: for [Some msg] it
    raises an exception of its own with that message, as the appsi interface
    of Pyomo does; for [None] it returns [False]. *)
Record world : Type := mk_world {
  colab : bool;
  available : bool;
  available_raises : option string;
  solution : model -> valuation
}.

(** A cell: from the trace so far to the trace after, with either the
    message of the exception raised or a result. *)
Definition cell (A : Type) : Type :=
  list event -> list event * (string + A).

Definition ret {A} (a : A) : cell A := fun tr => (tr, inr a).

Definition raise {A} (msg : string) : cell A := fun tr => (tr, inl msg).

Definition bind {A B} (c : cell A) (k : A -> cell B) : cell B :=
  fun tr =>
    match c tr with
    | (tr', inl msg) => (tr', inl msg)
    | (tr', inr a) => k a tr'
    end.

Notation "x <- c ;; k" := (bind c (fun x => k))
  (at level 61, c at next level, right associativity).
Notation "c ;; k" := (bind c (fun _ => k))
  (at level 61, right associativity).

Definition emit (e : event) : cell unit := fun tr => ((tr ++ [e])%list, inr tt).

(** [assert b, msg] *)
Definition assert_ (b : bool) (msg : string) : cell unit :=
  fun tr => if b then (tr, inr tt) else (tr, inl msg).

(** [SOLVER.available()]: true when the solver is installed; when it is not,
    the call raises or returns false, as the world says. *)
Definition SOLVER_available (w : world) : cell bool :=
  emit Available ;;
  if available w then ret true
  else match available_raises w with
       | Some msg => raise msg
       | None => ret false
       end.

(** [SOLVER.solve(m)]; solving stores the solution in the model, read back
    here as a valuation. *)
Definition SOLVER_solve (w : world) (m : model) : cell valuation :=
  emit (Solve m) ;; ret (solution w m).

Definition print (numbers : list R) : cell unit := emit (Print numbers).

Definition solver : string := "appsi_highs".

(** The preamble cell, the same in both notebooks. *)
Definition preamble (w : world) : cell unit :=
  (if colab w then emit (Pip "pyomo") ;; emit (Pip "highspy") else ret tt) ;;
  emit (SolverFactory solver) ;;
  ok <- SOLVER_available w ;;
  assert_ ok ("Solver " ++ solver ++ " is not available.").

(** Notebook 2.4, second code cell. *)
Definition maxmin_cell (w : world) : cell unit :=
  let m := Maxmin.BIM_maxmin Maxmin.scenarios in
  rho <- SOLVER_solve w m ;;
  print [pyo_value m "x1" rho; pyo_value m "x2" rho] ;;
  print [pyo_value m "profit" rho].

(** Notebook 2.4, third code cell: empty. *)
Definition empty_cell : cell unit := ret tt.

(** Notebook 2.5, second code cell. *)
Definition linear_cell (w : world) : cell unit :=
  let BIM_linear := Fractional.BIM_with_revenues_minus_costs in
  rho <- SOLVER_solve w BIM_linear ;;
  let r := Fractional.BIM_linear_report rho in
  print [Fractional.x1 r; Fractional.x2 r; Fractional.value r;
         Fractional.revenue r; Fractional.cost r].

Definition is_zero (x : R) : bool :=
  if Req_dec_T x 0 then true else false.

(** A division of Python raises when the divisor is zero; of the exception
    only the type is recorded. *)
Definition ZeroDivisionError : string := "ZeroDivisionError".

Definition nonzero (divisor : R) : cell unit :=
  if is_zero divisor then raise ZeroDivisionError else ret tt.

(** Notebook 2.5, third code cell.  The arguments of [format] are computed
    before anything is printed: the divisions by [t] raise when [t] is zero,
    and so does the ratio when its denominator is zero. *)
Definition fractional_cell (w : world) : cell unit :=
  let BIM_fractional := Fractional.BIM_with_revenues_over_costs in
  rho <- SOLVER_solve w BIM_fractional ;;
  let t := pyo_value BIM_fractional "t" rho in
  nonzero t ;;
  nonzero (pyo_value BIM_fractional "variable_cost" rho
           + pyo_value BIM_fractional "fixed_cost" rho * t) ;;
  let r := Fractional.BIM_fractional_report rho in
  print [Fractional.x1 r; Fractional.x2 r; Fractional.value r;
         Fractional.revenue r; Fractional.cost r].

Fixpoint run_cells (cells : list (cell unit)) : cell unit :=
  match cells with
  | [] => ret tt
  | c :: cells' => c ;; run_cells cells'
  end.

Definition notebook_maxmin (w : world) : list (cell unit) :=
  [preamble w; maxmin_cell w; empty_cell].

Definition notebook_fractional (w : world) : list (cell unit) :=
  [preamble w; linear_cell w; fractional_cell w].

(** A whole run, from the empty trace. *)
Definition run (cells : list (cell unit)) : list event * (string + unit) :=
  run_cells cells [].

(** The models handed to [SOLVER.solve], in order. *)
Fixpoint solved (tr : list event) : list model :=
  match tr with
  | [] => []
  | Solve m :: tr' => m :: solved tr'
  | _ :: tr' => solved tr'
  end.


(** *** Expected traces *)

(** The trace of the preamble cell. *)
Definition preamble_trace (w : world) : list event :=
  (if colab w then [Pip "pyomo"; Pip "highspy"] else [])
  ++ [SolverFactory solver; Available].

Definition maxmin_trace (w : world) : list event :=
  let m := Maxmin.BIM_maxmin Maxmin.scenarios in
  let rho := solution w m in
  [Solve m; Print [rho "x1"; rho "x2"]; Print [rho "z"]].

Definition fractional_trace (w : world) : list event :=
  let BIM_linear := Fractional.BIM_with_revenues_minus_costs in
  let BIM_fractional := Fractional.BIM_with_revenues_over_costs in
  let r1 := Fractional.BIM_linear_report (solution w BIM_linear) in
  let r2 := Fractional.BIM_fractional_report (solution w BIM_fractional) in
  [Solve BIM_linear;
   Print [Fractional.x1 r1; Fractional.x2 r1; Fractional.value r1;
          Fractional.revenue r1; Fractional.cost r1];
   Solve BIM_fractional;
   Print [Fractional.x1 r2; Fractional.x2 r2; Fractional.value r2;
          Fractional.revenue r2; Fractional.cost r2]].

(** The trace of notebook 2.5 when the second report divides by zero. *)
Definition fractional_trace_stopped (w : world) : list event :=
  let BIM_linear := Fractional.BIM_with_revenues_minus_costs in
  let BIM_fractional := Fractional.BIM_with_revenues_over_costs in
  let r1 := Fractional.BIM_linear_report (solution w BIM_linear) in
  [Solve BIM_linear;
   Print [Fractional.x1 r1; Fractional.x2 r1; Fractional.value r1;
          Fractional.revenue r1; Fractional.cost r1];
   Solve BIM_fractional].

(** Is a divisor of the second report zero at the solver's answer? *)
Definition divides_by_zero (w : world) : bool :=
  let rho := solution w Fractional.BIM_with_revenues_over_costs in
  is_zero (rho "t")
  || is_zero (7 / 6 * rho "y1" + 5 / 6 * rho "y2" + 100 * rho "t").

Definition unavailable_message : string :=
  "Solver appsi_highs is not available.".

(** The error that ends a run when the solver is missing. *)
Definition unavailable_error (w : world) : string :=
  match available_raises w with
  | Some msg => msg
  | None => unavailable_message
  end.




(** A world where the solver is installed. *)
Definition with_solver : world := mk_world false true None (fun _ _ => 0%R).

(** On Colab, with the solver installed after the two installs. *)
Definition colab_with_solver : world :=
  mk_world true true None (fun _ _ => 0%R).

(** The numbers printed, line by line, and the packages installed. *)
Fixpoint printed (tr : list event) : list (list R) :=
  match tr with
  | [] => []
  | Print numbers :: tr' => numbers :: printed tr'
  | _ :: tr' => printed tr'
  end.

Fixpoint installs (tr : list event) : list string :=
  match tr with
  | [] => []
  | Pip package :: tr' => package :: installs tr'
  | _ :: tr' => installs tr'
  end.

(** A world whose solver returns the optimum of each of the three models,
    told apart by their names. *)
Definition oracle : world :=
  mk_world false true None
    (fun m =>
       if String.eqb (name m) "BIM with revenues minus costs"
       then Fractional.linear_optimum
       else if String.eqb (name m) "BIM with revenues over costs"
       then Fractional.fractional_optimum
       else Maxmin.maxmin_optimum).

End Notebook.

(** ** Proof tools *)

(** Rational literals become real literals. *)
Ltac q2r := unfold Q2R in *; cbn [Qnum Qden] in *.

(** Unfolds a closed model down to a conjunction of real (in)equalities. *)
Ltac open_model :=
  unfold upper_bound, is_maximizer, feasible, objective_value, pyo_value in *;
  cbn [components setattr ConcreteModel app name find_objective attr_expr
       Fractional.BIM_with_revenues_minus_costs
       Fractional.BIM_with_revenues_over_costs] in *;
  rewrite ?Forall_cons_iff, ?Forall_nil_iff in *;
  cbn [component_ok in_domain holds eval] in *.

Section FractionalFacts.
Import Fractional.
Local Open Scope R_scope.

Lemma feasible_minus_costs rho :
  feasible BIM_with_revenues_minus_costs rho <->
  BIM_region (rho "x1") (rho "x2").
Proof.
  unfold BIM_region. open_model. q2r. intuition lra.
Qed.

Lemma objective_minus_costs rho :
  objective_value BIM_with_revenues_minus_costs rho =
  12 * rho "x1" + 9 * rho "x2" - (7 / 6 * rho "x1" + 5 / 6 * rho "x2") - 100.
Proof. open_model. cbn. q2r. lra. Qed.

End FractionalFacts.

Section FractionalTheorems.
Import Fractional.
Local Open Scope R_scope.

Lemma feasible_over_costs rho :
  feasible BIM_with_revenues_over_costs rho <->
  0 <= rho "y1" /\ 0 <= rho "y2" /\ 0 < rho "t" /\
  rho "y1" <= 1000 * rho "t" /\ rho "y2" <= 1500 * rho "t" /\
  rho "y1" + rho "y2" <= 1750 * rho "t" /\
  4 * rho "y1" + 2 * rho "y2" <= 4800 * rho "t" /\
  7 / 6 * rho "y1" + 5 / 6 * rho "y2" + 100 * rho "t" = 1.
Proof. open_model. q2r. intuition lra. Qed.

Lemma objective_over_costs rho :
  objective_value BIM_with_revenues_over_costs rho =
  12 * rho "y1" + 9 * rho "y2".
Proof. open_model. cbn. q2r. lra. Qed.

(** C1. For the model built by [BIM_with_revenues_minus_costs] the point
    x = (650, 1100) is feasible, its objective value is 15925, and every
    feasible point has objective value at most 15925. *)
Theorem minus_costs_optimum :
  feasible BIM_with_revenues_minus_costs linear_optimum /\
  objective_value BIM_with_revenues_minus_costs linear_optimum = 15925 /\
  forall rho, feasible BIM_with_revenues_minus_costs rho ->
    objective_value BIM_with_revenues_minus_costs rho <= 15925.
Proof.
  split; [| split].
  - apply feasible_minus_costs. unfold BIM_region, linear_optimum. cbn. lra.
  - rewrite objective_minus_costs. unfold linear_optimum. cbn. lra.
  - intros rho H. apply feasible_minus_costs in H. unfold BIM_region in H.
    rewrite objective_minus_costs. lra.
Qed.

Lemma fractional_optimum_feasible :
  feasible BIM_with_revenues_over_costs fractional_optimum.
Proof.
  apply feasible_over_costs. unfold fractional_optimum. cbn. lra.
Qed.

Lemma fractional_optimum_value :
  objective_value BIM_with_revenues_over_costs fractional_optimum = 1980 / 197.
Proof. rewrite objective_over_costs. unfold fractional_optimum. cbn. lra. Qed.

Lemma over_costs_bound rho :
  feasible BIM_with_revenues_over_costs rho ->
  objective_value BIM_with_revenues_over_costs rho <= 1980 / 197.
Proof.
  intros H. apply feasible_over_costs in H.
  rewrite objective_over_costs. lra.
Qed.

Lemma fractional_optimum_maximizer :
  is_maximizer BIM_with_revenues_over_costs fractional_optimum.
Proof.
  split.
  - exact fractional_optimum_feasible.
  - intros rho H. rewrite fractional_optimum_value.
    now apply over_costs_bound.
Qed.

(** The linearized model has no other solution. *)
Lemma over_costs_maximizer_unique rho :
  is_maximizer BIM_with_revenues_over_costs rho ->
  rho "y1" = 30 / 197 /\ rho "y2" = 180 / 197 /\ rho "t" = 3 / 4925.
Proof.
  intros [Hf Hmax].
  specialize (Hmax _ fractional_optimum_feasible).
  rewrite fractional_optimum_value in Hmax.
  pose proof (over_costs_bound rho Hf) as Hle.
  rewrite objective_over_costs in *.
  apply feasible_over_costs in Hf. lra.
Qed.

Lemma fractional_report_fields rho :
  BIM_fractional_report rho =
  mk_report
    (rho "y1" / rho "t")
    (rho "y2" / rho "t")
    ((12 * rho "y1" + 9 * rho "y2")
       / (7 / 6 * rho "y1" + 5 / 6 * rho "y2" + 100 * rho "t"))
    ((12 * rho "y1" + 9 * rho "y2") / rho "t")
    ((7 / 6 * rho "y1" + 5 / 6 * rho "y2") / rho "t" + 100).
Proof.
  unfold BIM_fractional_report. open_model. cbn. q2r.
  f_equal; f_equal; lra.
Qed.

(** C2. The linearized fractional model has an optimal solution; for every
    optimal solution the plan recovered as (y1/t, y2/t) is (250, 1500), and
    the optimal objective value, the value the cell reports and the
    efficiency ratio of the recovered plan are all 1980/197, which rounds to
    10.051 at three decimals. *)
Theorem over_costs_optimum :
  is_maximizer BIM_with_revenues_over_costs fractional_optimum /\
  (forall rho, is_maximizer BIM_with_revenues_over_costs rho ->
     let r := BIM_fractional_report rho in
     x1 r = 250 /\ x2 r = 1500 /\
     objective_value BIM_with_revenues_over_costs rho = 1980 / 197 /\
     value r = 1980 / 197 /\
     efficiency (x1 r) (x2 r) = 1980 / 197) /\
  efficiency 250 1500 = 16500 / (9850 / 6) /\
  16500 / (9850 / 6) = 1980 / 197 /\
  10.0505 <= 1980 / 197 < 10.0515.
Proof.
  split; [exact fractional_optimum_maximizer |].
  split.
  - intros rho H.
    destruct (over_costs_maximizer_unique rho H) as (H1 & H2 & Ht).
    rewrite fractional_report_fields. cbn [x1 x2 value].
    rewrite objective_over_costs. unfold efficiency.
    rewrite H1, H2, Ht. repeat split; field_simplify; lra.
  - unfold efficiency. repeat split; try lra; field_simplify; lra.
Qed.

(** The recovered plan at the solution, computed. *)
Lemma over_costs_optimum_witness :
  let r := BIM_fractional_report fractional_optimum in
  x1 r = 250 /\ x2 r = 1500 /\
  objective_value BIM_with_revenues_over_costs fractional_optimum = 1980 / 197 /\
  value r = 1980 / 197 /\
  efficiency (x1 r) (x2 r) = 1980 / 197.
Proof.
  exact (proj1 (proj2 over_costs_optimum) fractional_optimum
               (proj1 over_costs_optimum)).
Defined.

(** *** The change of variables *)

Lemma scaled_le (y c t : R) : 0 < t -> y <= c * t -> y / t <= c.
Proof.
  intros Ht H. apply Rmult_le_reg_r with t; [exact Ht |].
  unfold Rdiv. rewrite Rmult_assoc, Rinv_l by lra. lra.
Qed.

Lemma scaled_nonneg (y t : R) : 0 < t -> 0 <= y -> 0 <= y / t.
Proof.
  intros Ht H. apply Rmult_le_reg_r with t; [exact Ht |].
  unfold Rdiv. rewrite Rmult_assoc, Rinv_l by lra. lra.
Qed.

(** Dividing a feasible point of the linearized model by [t] gives a plan of
    the region whose efficiency is the linear objective. *)
Lemma recover_plan rho :
  feasible BIM_with_revenues_over_costs rho ->
  BIM_region (rho "y1" / rho "t") (rho "y2" / rho "t") /\
  12 * rho "y1" + 9 * rho "y2" =
    efficiency (rho "y1" / rho "t") (rho "y2" / rho "t").
Proof.
  intros H. apply feasible_over_costs in H.
  destruct H as (H1 & H2 & Ht & Hs & Hg & Hp & Hc & Hn).
  split.
  - unfold BIM_region. repeat split.
    + now apply scaled_nonneg.
    + now apply scaled_nonneg.
    + now apply scaled_le.
    + now apply scaled_le.
    + replace (rho "y1" / rho "t" + rho "y2" / rho "t")
        with ((rho "y1" + rho "y2") / rho "t") by (field; lra).
      now apply scaled_le.
    + replace (4 * (rho "y1" / rho "t") + 2 * (rho "y2" / rho "t"))
        with ((4 * rho "y1" + 2 * rho "y2") / rho "t") by (field; lra).
      now apply scaled_le.
  - unfold efficiency.
    replace (7 / 6 * (rho "y1" / rho "t") + 5 / 6 * (rho "y2" / rho "t") + 100)
      with ((7 / 6 * rho "y1" + 5 / 6 * rho "y2" + 100 * rho "t") / rho "t")
      by (field; lra).
    rewrite Hn. field. lra.
Qed.

Lemma scale_plan_feasible a b :
  BIM_region a b ->
  feasible BIM_with_revenues_over_costs (scale_plan a b) /\
  scale_plan a b "y1" / scale_plan a b "t" = a /\
  scale_plan a b "y2" / scale_plan a b "t" = b /\
  objective_value BIM_with_revenues_over_costs (scale_plan a b) =
    efficiency a b.
Proof.
  intros (Ha & Hb & Hs & Hg & Hp & Hc).
  assert (Hd : 0 < 7 / 6 * a + 5 / 6 * b + 100) by lra.
  assert (Hi : 0 < / (7 / 6 * a + 5 / 6 * b + 100))
    by now apply Rinv_0_lt_compat.
  rewrite feasible_over_costs, objective_over_costs.
  unfold scale_plan, efficiency. cbn.
  set (d := 7 / 6 * a + 5 / 6 * b + 100) in *.
  unfold Rdiv. rewrite !Rmult_1_l.
  repeat split.
  - apply Rmult_le_pos; lra.
  - apply Rmult_le_pos; lra.
  - exact Hi.
  - apply Rmult_le_compat_r; lra.
  - apply Rmult_le_compat_r; lra.
  - rewrite <- Rmult_plus_distr_r. apply Rmult_le_compat_r; lra.
  - replace (4 * (a * / d) + 2 * (b * / d)) with ((4 * a + 2 * b) * / d) by ring.
    apply Rmult_le_compat_r; lra.
  - replace (7 * / 6 * (a * / d) + 5 * / 6 * (b * / d) + 100 * / d)
      with ((7 * / 6 * a + 5 * / 6 * b + 100) * / d) by ring.
    unfold Rdiv in d. fold d. apply Rinv_r. lra.
  - field. lra.
  - field. lra.
  - ring.
Qed.

Lemma fractional_report_plan rho :
  x1 (BIM_fractional_report rho) = rho "y1" / rho "t" /\
  x2 (BIM_fractional_report rho) = rho "y2" / rho "t".
Proof. rewrite fractional_report_fields. split; reflexivity. Qed.

(** C5. The fractional-objective linearization is a correct change of
    variables.  (1) At every feasible point of the linearized model, t > 0,
    the denominator is normalized to 1, the plan recovered by the report
    cell lies in the production region and its efficiency ratio is the
    linear objective.  (2) Every plan of the region is recovered from some
    feasible point of the linearized model, with the same value.  (3) Hence
    the linearized model and the fractional problem have the same optimal
    value, and (4) the plan recovered from an optimal solution of the
    linearized model is optimal for the fractional problem. *)
Theorem fractional_linearization :
  (forall rho, feasible BIM_with_revenues_over_costs rho ->
     let r := BIM_fractional_report rho in
     0 < rho "t" /\
     7 / 6 * rho "y1" + 5 / 6 * rho "y2" + 100 * rho "t" = 1 /\
     BIM_region (x1 r) (x2 r) /\
     objective_value BIM_with_revenues_over_costs rho =
       efficiency (x1 r) (x2 r)) /\
  (forall a b, BIM_region a b ->
     exists rho, feasible BIM_with_revenues_over_costs rho /\
       x1 (BIM_fractional_report rho) = a /\
       x2 (BIM_fractional_report rho) = b /\
       objective_value BIM_with_revenues_over_costs rho = efficiency a b) /\
  (forall v, optimal_value BIM_with_revenues_over_costs v <->
             max_over_region efficiency v) /\
  (forall rho, is_maximizer BIM_with_revenues_over_costs rho ->
     let r := BIM_fractional_report rho in
     BIM_region (x1 r) (x2 r) /\
     forall a b, BIM_region a b ->
       efficiency a b <= efficiency (x1 r) (x2 r)).
Proof.
  assert (Hfwd : forall rho, feasible BIM_with_revenues_over_costs rho ->
     BIM_region (x1 (BIM_fractional_report rho)) (x2 (BIM_fractional_report rho))
     /\ objective_value BIM_with_revenues_over_costs rho =
        efficiency (x1 (BIM_fractional_report rho))
                   (x2 (BIM_fractional_report rho))).
  { intros rho H. destruct (fractional_report_plan rho) as [-> ->].
    rewrite objective_over_costs. now apply recover_plan. }
  assert (Hbwd : forall a b, BIM_region a b ->
     exists rho, feasible BIM_with_revenues_over_costs rho /\
       x1 (BIM_fractional_report rho) = a /\
       x2 (BIM_fractional_report rho) = b /\
       objective_value BIM_with_revenues_over_costs rho = efficiency a b).
  { intros a b H. exists (scale_plan a b).
    destruct (fractional_report_plan (scale_plan a b)) as [-> ->].
    now apply scale_plan_feasible. }
  assert (Hopt : forall rho, is_maximizer BIM_with_revenues_over_costs rho ->
     forall a b, BIM_region a b ->
       efficiency a b <= efficiency (x1 (BIM_fractional_report rho))
                                    (x2 (BIM_fractional_report rho))).
  { intros rho [Hf Hmax] a b Hab.
    destruct (Hbwd a b Hab) as (rho' & Hf' & _ & _ & <-).
    destruct (Hfwd rho Hf) as [_ <-]. now apply Hmax. }
  split; [| split; [exact Hbwd | split]].
  - intros rho H. cbv zeta.
    pose proof (Hfwd rho H) as [Hr He].
    apply feasible_over_costs in H. intuition.
  - intros v. split.
    + intros (rho & Hm & Hv). split.
      * exists (x1 (BIM_fractional_report rho)), (x2 (BIM_fractional_report rho)).
        destruct (Hfwd rho (proj1 Hm)) as [Hr He]. split; [exact Hr |].
        now rewrite <- He.
      * intros a b Hab. rewrite <- Hv.
        destruct (Hfwd rho (proj1 Hm)) as [_ ->]. now apply Hopt.
    + intros [(a & b & Hab & Hv) Hmax].
      destruct (Hbwd a b Hab) as (rho & Hf & _ & _ & Ho).
      exists rho. split; [split; [exact Hf |] | now rewrite Ho].
      intros rho' Hf'. rewrite Ho, Hv.
      destruct (Hfwd rho' Hf') as [Hr ->]. now apply Hmax.
  - intros rho Hm. cbv zeta. split.
    + now apply Hfwd, Hm.
    + now apply Hopt.
Qed.

(** The plan (250, 1500) is recovered from a feasible point of the
    linearized model. *)
Lemma fractional_linearization_witness :
  exists rho, feasible BIM_with_revenues_over_costs rho /\
    x1 (BIM_fractional_report rho) = 250 /\
    x2 (BIM_fractional_report rho) = 1500 /\
    objective_value BIM_with_revenues_over_costs rho = efficiency 250 1500.
Proof.
  apply (proj1 (proj2 fractional_linearization) 250 1500).
  unfold BIM_region. lra.
Defined.

End FractionalTheorems.

Section MaxminFacts.
Import Maxmin.
Local Open Scope R_scope.

(** *** What the loop builds *)

Lemma add_row_loop (costs : list (Q * Q)) :
  forall (n : string) (pre : list (string * component)) (rs : list relation),
    (forall r, map (add_to "maxmin" r) pre = pre) ->
    fold_left add_row costs
      (mk_model n (pre ++ [("maxmin", ConstraintList rs)])) =
    mk_model n (pre ++ [("maxmin", ConstraintList (rs ++ map maxmin_row costs))]).
Proof.
  induction costs as [| c costs IH]; intros n pre rs Hpre; cbn [fold_left map].
  - now rewrite app_nil_r.
  - unfold add_row at 2. unfold ConstraintList_add. cbn [name components].
    rewrite map_app, Hpre. cbn [map add_to]. cbn [String.eqb Ascii.eqb Bool.eqb].
    cbn. rewrite IH by exact Hpre. now rewrite <- app_assoc.
Qed.

Lemma BIM_maxmin_components costs :
  components (BIM_maxmin costs) =
  [ ("x1", Var NonNegativeReals);
    ("x2", Var NonNegativeReals);
    ("z", Var AnyReals);
    ("profit", Objective maximize (Ref "z"));
    ("maxmin", ConstraintList (map maxmin_row costs));
    ("silicon", Constraint (Le (Ref "x1") (Num 1000)));
    ("germanium", Constraint (Le (Ref "x2") (Num 1500)));
    ("plastic", Constraint (Le (Plus (Ref "x1") (Ref "x2")) (Num 1750)));
    ("copper",
     Constraint (Le (Plus (Times (Num 4) (Ref "x1")) (Times (Num 2) (Ref "x2")))
                    (Num 4800))) ].
Proof.
  unfold BIM_maxmin. cbv zeta.
  pose proof (add_row_loop costs
                "BIM production planning with maxmin objective"
                [ ("x1", Var NonNegativeReals); ("x2", Var NonNegativeReals);
                  ("z", Var AnyReals); ("profit", Objective maximize (Ref "z")) ]
                [] (fun r => eq_refl)) as Hloop.
  cbn [app] in Hloop.
  match goal with
  | |- context [fold_left add_row costs ?m] =>
      let m' := eval cbv [setattr ConcreteModel components name app] in m in
      change m with m'
  end.
  rewrite Hloop. reflexivity.
Qed.

Lemma relations_maxmin costs :
  relations (components (BIM_maxmin costs)) =
  (map maxmin_row costs ++ resource_rows)%list.
Proof. rewrite BIM_maxmin_components. reflexivity. Qed.

Lemma holds_maxmin_row rho c :
  holds rho (maxmin_row c) <->
  rho "z" <= revenue_at (rho "x1") (rho "x2") c.
Proof. destruct c as [c1 c2]. reflexivity. Qed.

Lemma feasible_maxmin costs rho :
  feasible (BIM_maxmin costs) rho <->
  BIM_region (rho "x1") (rho "x2") /\
  Forall (fun c => rho "z" <= revenue_at (rho "x1") (rho "x2") c) costs.
Proof.
  unfold feasible. rewrite BIM_maxmin_components.
  rewrite !Forall_cons_iff, Forall_nil_iff.
  cbn [component_ok in_domain holds eval].
  rewrite Forall_map.
  assert (Hrows :
    Forall (fun c => holds rho (maxmin_row c)) costs <->
    Forall (fun c => rho "z" <= revenue_at (rho "x1") (rho "x2") c) costs).
  { split; apply Forall_impl; intros c; apply holds_maxmin_row. }
  rewrite Hrows. unfold BIM_region. q2r. intuition lra.
Qed.

Lemma objective_maxmin costs rho :
  objective_value (BIM_maxmin costs) rho = rho "z".
Proof. unfold objective_value. rewrite BIM_maxmin_components. reflexivity. Qed.

(** *** The lowest revenue over a list of price pairs *)

Lemma Rmin_ge_iff (z x y : R) : z <= Rmin x y <-> z <= x /\ z <= y.
Proof. unfold Rmin. destruct (Rle_dec x y); lra. Qed.

Lemma worst_case_cons c c' cs a b :
  worst_case (c :: c' :: cs) a b =
  Rmin (revenue_at a b c) (worst_case (c' :: cs) a b).
Proof. reflexivity. Qed.

Lemma worst_case_ge costs a b z :
  costs <> [] ->
  (z <= worst_case costs a b <-> Forall (fun c => z <= revenue_at a b c) costs).
Proof.
  induction costs as [| c [| c' cs] IH]; intros Hne.
  - contradiction.
  - cbn [worst_case]. rewrite Forall_cons_iff, Forall_nil_iff. tauto.
  - rewrite worst_case_cons, Rmin_ge_iff, Forall_cons_iff, IH by discriminate.
    tauto.
Qed.

(** [worst_case] is the minimum: a lower bound of the revenues that one of
    the price pairs attains. *)
Lemma worst_case_is_min costs a b :
  costs <> [] ->
  (forall c, In c costs -> worst_case costs a b <= revenue_at a b c) /\
  (exists c, In c costs /\ worst_case costs a b = revenue_at a b c).
Proof.
  intros Hne. split.
  - apply Forall_forall, worst_case_ge; [exact Hne | lra].
  - induction costs as [| c [| c' cs] IH]; [contradiction | |].
    + exists c. split; [now left | reflexivity].
    + rewrite worst_case_cons. unfold Rmin.
      destruct (Rle_dec (revenue_at a b c) (worst_case (c' :: cs) a b)).
      * exists c. split; [now left | reflexivity].
      * destruct IH as (c0 & Hin & Heq); [discriminate |].
        exists c0. split; [now right | exact Heq].
Qed.

Lemma plan_x1 a b z : plan a b z "x1" = a.
Proof. reflexivity. Qed.

Lemma plan_x2 a b z : plan a b z "x2" = b.
Proof. reflexivity. Qed.

Lemma plan_z a b z : plan a b z "z" = z.
Proof. reflexivity. Qed.

Lemma feasible_plan costs a b z :
  feasible (BIM_maxmin costs) (plan a b z) <->
  BIM_region a b /\ Forall (fun c => z <= revenue_at a b c) costs.
Proof. rewrite feasible_maxmin, plan_x1, plan_x2, plan_z. reflexivity. Qed.

End MaxminFacts.

Section MaxminTheorems.
Import Maxmin.
Local Open Scope R_scope.

(** Concrete price lists reduce to real inequalities. *)
Ltac open_rows :=
  rewrite ?Forall_cons_iff, ?Forall_nil_iff in *;
  unfold revenue_at, BIM_region in *; cbn [fst snd] in *; q2r.

Lemma maxmin_optimum_feasible : feasible (BIM_maxmin scenarios) maxmin_optimum.
Proof. apply feasible_plan. unfold scenarios. open_rows. lra. Qed.

Lemma maxmin_bound rho :
  feasible (BIM_maxmin scenarios) rho ->
  objective_value (BIM_maxmin scenarios) rho <= 17500.
Proof.
  rewrite feasible_maxmin, objective_maxmin. unfold scenarios.
  intros H. open_rows. lra.
Qed.

Lemma maxmin_optimum_maximizer : is_maximizer (BIM_maxmin scenarios) maxmin_optimum.
Proof.
  split; [exact maxmin_optimum_feasible |].
  intros rho H. rewrite (objective_maxmin _ maxmin_optimum).
  now apply maxmin_bound.
Qed.

Lemma maxmin_maximizer_unique rho :
  is_maximizer (BIM_maxmin scenarios) rho ->
  rho "x1" = 1750 / 3 /\ rho "x2" = 3500 / 3 /\ rho "z" = 17500.
Proof.
  intros [Hf Hmax].
  specialize (Hmax _ maxmin_optimum_feasible).
  rewrite !objective_maxmin in Hmax. unfold maxmin_optimum in Hmax.
  rewrite plan_z in Hmax.
  apply feasible_maxmin in Hf. unfold scenarios in Hf. open_rows. lra.
Qed.

(** C3. For [BIM_maxmin [[12, 9], [11, 10], [8, 11]]] the point
    x = (1750/3, 3500/3) with z = 17500 is optimal, every optimal solution
    has this x, the optimal objective value is exactly 17500, it is the
    worst-case revenue of the plan over the three price pairs, and the plan
    prints as (583.3, 1166.7). *)
Theorem maxmin_scenarios_optimum :
  is_maximizer (BIM_maxmin scenarios) maxmin_optimum /\
  objective_value (BIM_maxmin scenarios) maxmin_optimum = 17500 /\
  (forall rho, is_maximizer (BIM_maxmin scenarios) rho ->
     rho "x1" = 1750 / 3 /\ rho "x2" = 3500 / 3 /\
     objective_value (BIM_maxmin scenarios) rho = 17500) /\
  worst_case scenarios (1750 / 3) (3500 / 3) = 17500 /\
  (583.25 <= 1750 / 3 < 583.35 /\ 1166.65 <= 3500 / 3 < 1166.75).
Proof.
  split; [exact maxmin_optimum_maximizer |].
  split; [now rewrite objective_maxmin |].
  split.
  - intros rho H. rewrite objective_maxmin.
    now apply maxmin_maximizer_unique.
  - split; [| lra].
    unfold scenarios. cbn [worst_case]. unfold revenue_at. cbn [fst snd]. q2r.
    unfold Rmin.
    repeat match goal with
           | |- context [Rle_dec ?x ?y] => destruct (Rle_dec x y)
           end; lra.
Qed.

(** The optimal plan, from the solution the model has. *)
Lemma maxmin_scenarios_optimum_witness :
  maxmin_optimum "x1" = 1750 / 3 /\ maxmin_optimum "x2" = 3500 / 3 /\
  objective_value (BIM_maxmin scenarios) maxmin_optimum = 17500.
Proof.
  exact (proj1 (proj2 (proj2 maxmin_scenarios_optimum)) maxmin_optimum
               (proj1 maxmin_scenarios_optimum)).
Defined.

(** *** The linearization in general *)

(** At a fixed plan, the feasible values of [z] are those at most the lowest
    revenue. *)
Lemma feasible_z_iff costs a b z :
  costs <> [] ->
  (feasible (BIM_maxmin costs) (plan a b z) <->
   BIM_region a b /\ z <= worst_case costs a b).
Proof. intros Hne. now rewrite feasible_plan, worst_case_ge. Qed.

Lemma feasible_z_le costs rho :
  costs <> [] ->
  feasible (BIM_maxmin costs) rho ->
  BIM_region (rho "x1") (rho "x2") /\
  rho "z" <= worst_case costs (rho "x1") (rho "x2").
Proof.
  intros Hne H. apply feasible_maxmin in H. now rewrite worst_case_ge.
Qed.

(** C4. The maximin linearization is equivalent to the original maximin
    problem, for every nonempty list of price pairs.  (1) The model holds
    one inequality z <= c1*x1 + c2*x2 per price pair, in order, and besides
    them only the four resource constraints.  (2) [worst_case] is the
    minimum of the revenues over the price pairs.  (3) At every plan of the
    region, the largest feasible z, hence the largest objective value, is
    that minimum, and it is attained.  (4) The optimal value of the model is
    the maximum over the region of that minimum. *)
Theorem maxmin_linearization (costs : list (Q * Q)) :
  costs <> [] ->
  (In ("maxmin", ConstraintList (map maxmin_row costs))
      (components (BIM_maxmin costs)) /\
   relations (components (BIM_maxmin costs)) =
     (map maxmin_row costs ++ resource_rows)%list /\
   List.length (map maxmin_row costs) = List.length costs) /\
  (forall a b,
     (forall c, In c costs -> worst_case costs a b <= revenue_at a b c) /\
     (exists c, In c costs /\ worst_case costs a b = revenue_at a b c)) /\
  (forall a b, BIM_region a b ->
     feasible (BIM_maxmin costs) (plan a b (worst_case costs a b)) /\
     objective_value (BIM_maxmin costs) (plan a b (worst_case costs a b)) =
       worst_case costs a b /\
     (forall rho, feasible (BIM_maxmin costs) rho ->
        rho "x1" = a -> rho "x2" = b ->
        objective_value (BIM_maxmin costs) rho <= worst_case costs a b)) /\
  (forall v, optimal_value (BIM_maxmin costs) v <->
             max_over_region (worst_case costs) v).
Proof.
  intros Hne.
  split; [| split; [| split]].
  - split; [| split].
    + rewrite BIM_maxmin_components. cbn. tauto.
    + apply relations_maxmin.
    + apply length_map.
  - intros a b. now apply worst_case_is_min.
  - intros a b Hab. split; [| split].
    + apply feasible_z_iff; [exact Hne |]. split; [exact Hab | lra].
    + now rewrite objective_maxmin.
    + intros rho Hf <- <-. rewrite objective_maxmin.
      now apply feasible_z_le.
  - intros v. split.
    + intros (rho & [Hf Hmax] & Hv). rewrite objective_maxmin in Hv.
      destruct (feasible_z_le costs rho Hne Hf) as [Hr Hz].
      assert (Hup : forall a b, BIM_region a b -> worst_case costs a b <= v).
      { intros a b Hab.
        specialize (Hmax (plan a b (worst_case costs a b))).
        rewrite !objective_maxmin, plan_z, Hv in Hmax.
        apply Hmax, feasible_z_iff; [exact Hne |]. split; [exact Hab | lra]. }
      split.
      * exists (rho "x1"), (rho "x2"). split; [exact Hr |].
        apply Rle_antisym; [now apply Hup | now rewrite <- Hv].
      * exact Hup.
    + intros [(a & b & Hab & Hv) Hup].
      exists (plan a b v). split; [split |].
      * apply feasible_z_iff; [exact Hne |]. split; [exact Hab | lra].
      * intros rho Hf. rewrite !objective_maxmin, plan_z.
        destruct (feasible_z_le costs rho Hne Hf) as [Hr Hz].
        specialize (Hup _ _ Hr). lra.
      * now rewrite objective_maxmin.
Qed.

(** The linearization at the three price pairs of the notebook: the
    maximum over the region of the lowest revenue is 17500. *)
Lemma maxmin_linearization_witness :
  max_over_region (worst_case scenarios) 17500.
Proof.
  apply (proj2 (proj2 (proj2
           (maxmin_linearization scenarios
              ltac:(unfold scenarios; discriminate))))).
  exists maxmin_optimum. split.
  - exact maxmin_optimum_maximizer.
  - now rewrite objective_maxmin.
Defined.

(** C9. The model [BIM_maxmin []] has no constraint that mentions z, and
    its objective is unbounded above: for every real M some feasible point
    has objective value z > M. *)
Theorem maxmin_empty_unbounded :
  forallb (fun r => negb (relation_mentions "z" r))
          (relations (components (BIM_maxmin []))) = true /\
  forall M : R, exists rho,
    feasible (BIM_maxmin []) rho /\ objective_value (BIM_maxmin []) rho > M.
Proof.
  split; [reflexivity |].
  intros M. exists (plan 0 0 (M + 1)). split.
  - apply feasible_plan. split; [unfold BIM_region; lra | constructor].
  - rewrite objective_maxmin, plan_z. lra.
Qed.

(** *** Adding a price pair *)

Lemma feasible_maxmin_app costs c rho :
  feasible (BIM_maxmin (costs ++ [c])) rho -> feasible (BIM_maxmin costs) rho.
Proof.
  rewrite !feasible_maxmin, Forall_app. tauto.
Qed.

(** The optimal value with two of the three price pairs. *)
Lemma maxmin_two_scenarios :
  optimal_value (BIM_maxmin [(12, 9); (11, 10)]%Q) 17700.
Proof.
  exists (plan 650 1100 17700). split; [split |].
  - apply feasible_plan. open_rows. lra.
  - intros rho. rewrite feasible_maxmin, !objective_maxmin, plan_z.
    intros H. open_rows. lra.
  - now rewrite objective_maxmin.
Qed.

Lemma maxmin_three_scenarios :
  optimal_value (BIM_maxmin ([(12, 9); (11, 10)]%Q ++ [(8, 11)]%Q)%list) 17500.
Proof.
  exists maxmin_optimum. split.
  - exact maxmin_optimum_maximizer.
  - now rewrite objective_maxmin.
Qed.

(** C10. Adding a price pair to the scenario list cannot raise the optimal
    value of [BIM_maxmin]: the feasible set only shrinks, so every upper
    bound of the objective stays one, and when both models have an optimal
    value the one with the longer list is the smaller. *)
Theorem maxmin_monotone (costs : list (Q * Q)) (c : Q * Q) :
  (forall rho, feasible (BIM_maxmin (costs ++ [c])) rho ->
               feasible (BIM_maxmin costs) rho) /\
  (forall u, upper_bound (BIM_maxmin costs) u ->
             upper_bound (BIM_maxmin (costs ++ [c])) u) /\
  (forall v v', optimal_value (BIM_maxmin costs) v ->
                optimal_value (BIM_maxmin (costs ++ [c])) v' ->
                v' <= v).
Proof.
  split; [| split].
  - intros rho. apply feasible_maxmin_app.
  - intros u Hu rho Hf. rewrite objective_maxmin.
    rewrite <- (objective_maxmin costs). apply Hu.
    now apply feasible_maxmin_app in Hf.
  - intros v v' (rho & [_ Hmax] & Hv) (rho' & [Hf' _] & Hv').
    rewrite <- Hv, <- Hv'. rewrite (objective_maxmin (costs ++ [c])).
    rewrite <- (objective_maxmin costs rho'). apply Hmax.
    now apply feasible_maxmin_app in Hf'.
Qed.

(** With the third price pair of the notebook the optimal value drops from
    17700 to 17500. *)
Lemma maxmin_monotone_witness : 17500 <= 17700.
Proof.
  exact (proj2 (proj2 (maxmin_monotone [(12, 9); (11, 10)]%Q (8, 11)%Q))
           17700 17500 maxmin_two_scenarios maxmin_three_scenarios).
Defined.

End MaxminTheorems.

Section DomainTheorems.
Import Fractional Maxmin.
Local Open Scope R_scope.

(** Every model of the notebooks is a maximization, so [is_maximizer] is
    what its objective asks for. *)
Lemma all_models_maximize :
  objective_sense BIM_with_revenues_minus_costs = Some maximize /\
  objective_sense BIM_with_revenues_over_costs = Some maximize /\
  forall costs, objective_sense (BIM_maxmin costs) = Some maximize.
Proof.
  split; [reflexivity | split; [reflexivity |]].
  intros costs. unfold objective_sense.
  rewrite BIM_maxmin_components. reflexivity.
Qed.

Lemma declared_vars_maxmin costs :
  declared_vars (components (BIM_maxmin costs)) =
  [("x1", NonNegativeReals); ("x2", NonNegativeReals); ("z", AnyReals)].
Proof. rewrite BIM_maxmin_components. reflexivity. Qed.

Lemma negative_z_feasible costs :
  feasible (BIM_maxmin costs) (plan 0 0 (-1)).
Proof.
  apply feasible_plan. split; [unfold BIM_region; lra |].
  apply Forall_forall. intros c _. unfold revenue_at. lra.
Qed.

(** C6, as stated, fails: in [BIM_maxmin] the auxiliary variable z is
    declared by [pyo.Var()], with no domain, and takes the value -1 at a
    feasible point of the notebook's own model. *)
Lemma some_var_negative :
  ~ (all_vars_nonneg BIM_with_revenues_minus_costs /\
     all_vars_nonneg BIM_with_revenues_over_costs /\
     forall costs, all_vars_nonneg (BIM_maxmin costs)).
Proof.
  intros (_ & _ & H).
  specialize (H scenarios (plan 0 0 (-1)) (negative_z_feasible scenarios)
                "z" AnyReals).
  rewrite declared_vars_maxmin, plan_z in H.
  assert (Hz : 0 <= -1) by (apply H; cbn; tauto).
  lra.
Qed.

(** C6, amended. Every declared variable other than z is constrained to
    values >= 0: x1, x2 in [BIM_with_revenues_minus_costs]; y1, y2 and t in
    [BIM_with_revenues_over_costs], where t is even strictly positive; x1
    and x2 in [BIM_maxmin costs] for every list costs.  The auxiliary z of
    [BIM_maxmin] is declared without domain and is negative at some feasible
    point, whatever the list. *)
Theorem declared_domains :
  all_vars_nonneg BIM_with_revenues_minus_costs /\
  all_vars_nonneg BIM_with_revenues_over_costs /\
  (forall rho, feasible BIM_with_revenues_over_costs rho -> 0 < rho "t") /\
  forall costs,
    declared_vars (components (BIM_maxmin costs)) =
      [("x1", NonNegativeReals); ("x2", NonNegativeReals); ("z", AnyReals)] /\
    (forall rho, feasible (BIM_maxmin costs) rho ->
       0 <= rho "x1" /\ 0 <= rho "x2") /\
    (exists rho, feasible (BIM_maxmin costs) rho /\ rho "z" < 0).
Proof.
  split; [| split; [| split]].
  - intros rho H n d Hin. apply feasible_minus_costs in H.
    unfold BIM_region in H. cbn in Hin.
    destruct Hin as [Hin | [Hin | []]]; inversion Hin; subst; lra.
  - intros rho H n d Hin. apply feasible_over_costs in H. cbn in Hin.
    destruct Hin as [Hin | [Hin | [Hin | []]]]; inversion Hin; subst; lra.
  - intros rho H. apply feasible_over_costs in H. lra.
  - intros costs. split; [apply declared_vars_maxmin | split].
    + intros rho H. apply feasible_maxmin in H. unfold BIM_region in H. lra.
    + exists (plan 0 0 (-1)). split; [apply negative_z_feasible |].
      rewrite plan_z. lra.
Qed.

(** At the solution of the linearized fractional model, y1 >= 0. *)
Lemma declared_domains_witness : 0 <= fractional_optimum "y1".
Proof.
  apply (proj1 (proj2 declared_domains) fractional_optimum
           fractional_optimum_feasible "y1" NonNegativeReals).
  cbn. tauto.
Defined.

End DomainTheorems.

Section NotebookTheorems.
Import Notebook.
Local Open Scope list_scope.

Lemma is_zero_true x : x = 0%R -> is_zero x = true.
Proof. intros ->. unfold is_zero. destruct (Req_dec_T 0 0); congruence. Qed.

Lemma is_zero_false x : x <> 0%R -> is_zero x = false.
Proof. intros H. unfold is_zero. destruct (Req_dec_T x 0); congruence. Qed.

Lemma run_preamble w :
  preamble w [] =
  if available w then (preamble_trace w, inr tt)
  else (preamble_trace w, inl (unavailable_error w)).
Proof. destruct w as [[] [] [msg |] sol]; reflexivity. Qed.

Lemma run_maxmin w :
  run (notebook_maxmin w) =
  if available w
  then (preamble_trace w ++ maxmin_trace w, inr tt)
  else (preamble_trace w, inl (unavailable_error w)).
Proof. destruct w as [[] [] [msg |] sol]; reflexivity. Qed.

Lemma over_costs_divisors rho :
  pyo_value Fractional.BIM_with_revenues_over_costs "t" rho = rho "t" /\
  (pyo_value Fractional.BIM_with_revenues_over_costs "variable_cost" rho
   + pyo_value Fractional.BIM_with_revenues_over_costs "fixed_cost" rho
     * pyo_value Fractional.BIM_with_revenues_over_costs "t" rho
   = 7 / 6 * rho "y1" + 5 / 6 * rho "y2" + 100 * rho "t")%R.
Proof. split; [reflexivity |]. open_model. cbn. q2r. lra. Qed.

Lemma run_fractional_cell w tr :
  fractional_cell w tr =
  if divides_by_zero w
  then (tr ++ [Solve Fractional.BIM_with_revenues_over_costs],
        inl ZeroDivisionError)
  else
    let r := Fractional.BIM_fractional_report
               (solution w Fractional.BIM_with_revenues_over_costs) in
    (tr ++ [Solve Fractional.BIM_with_revenues_over_costs;
            Print [Fractional.x1 r; Fractional.x2 r; Fractional.value r;
                   Fractional.revenue r; Fractional.cost r]],
     inr tt).
Proof.
  unfold fractional_cell, divides_by_zero. cbv zeta.
  unfold SOLVER_solve, nonzero, print, bind, emit, ret, raise.
  set (rho := solution w Fractional.BIM_with_revenues_over_costs).
  destruct (over_costs_divisors rho) as [Ht Hd]. rewrite Hd, Ht.
  destruct (is_zero (rho "t")); [reflexivity |].
  cbn [orb].
  destruct (is_zero (7 / 6 * rho "y1" + 5 / 6 * rho "y2" + 100 * rho "t"));
    [reflexivity |].
  rewrite <- app_assoc. reflexivity.
Qed.

Lemma run_fractional w :
  run (notebook_fractional w) =
  if available w
  then if divides_by_zero w
       then (preamble_trace w ++ fractional_trace_stopped w,
             inl ZeroDivisionError)
       else (preamble_trace w ++ fractional_trace w, inr tt)
  else (preamble_trace w, inl (unavailable_error w)).
Proof.
  unfold run, notebook_fractional. cbn [run_cells].
  unfold bind. rewrite run_preamble.
  destruct (available w); [| reflexivity].
  unfold linear_cell, SOLVER_solve, print, bind, emit, ret. cbv zeta.
  rewrite run_fractional_cell.
  unfold fractional_trace_stopped, fractional_trace.
  destruct (divides_by_zero w); cbv zeta;
    rewrite <- !app_assoc; reflexivity.
Qed.

Lemma solved_app tr tr' : solved (tr ++ tr') = solved tr ++ solved tr'.
Proof.
  induction tr as [| e tr IH]; [reflexivity |].
  destruct e; cbn [app solved]; now rewrite IH.
Qed.


Lemma solved_preamble w : solved (preamble_trace w) = [].
Proof. unfold preamble_trace. destruct (colab w); reflexivity. Qed.






(** C8, as stated, fails: notebook 2.4 solves one linear program. *)
Lemma maxmin_notebook_solves_one :
  ~ (forall w, available w = true ->
       List.length (solved (fst (run (notebook_maxmin w)))) = 2%nat /\
       List.length (solved (fst (run (notebook_fractional w)))) = 2%nat).
Proof.
  intros H. destruct (H with_solver eq_refl) as [H1 _].
  cbv in H1. discriminate H1.
Qed.

(** C8, amended. When the solver is available, notebook 2.5 builds and
    solves exactly two linear programs, the revenue-minus-cost model and the
    linearized fractional model, and notebook 2.4 builds and solves exactly
    one, the maximin model of the three price pairs. *)
Theorem programs_solved (w : world) :
  available w = true ->
  solved (fst (run (notebook_maxmin w))) =
    [Maxmin.BIM_maxmin Maxmin.scenarios] /\
  solved (fst (run (notebook_fractional w))) =
    [Fractional.BIM_with_revenues_minus_costs;
     Fractional.BIM_with_revenues_over_costs].
Proof.
  intros Hav. rewrite run_maxmin, run_fractional, Hav.
  destruct (divides_by_zero w); cbn [fst];
    rewrite !solved_app, solved_preamble; split; reflexivity.
Qed.

Lemma programs_solved_witness :
  solved (fst (run (notebook_maxmin with_solver))) =
    [Maxmin.BIM_maxmin Maxmin.scenarios] /\
  solved (fst (run (notebook_fractional with_solver))) =
    [Fractional.BIM_with_revenues_minus_costs;
     Fractional.BIM_with_revenues_over_costs].
Proof. exact (programs_solved with_solver eq_refl). Defined.

End NotebookTheorems.

(** ** Further properties of the maximin model *)

Section MaxminMore.
Import Maxmin.
Local Open Scope R_scope.

Lemma origin_feasible costs : feasible (BIM_maxmin costs) (plan 0 0 0).
Proof.
  apply feasible_plan. split; [unfold BIM_region; lra |].
  apply Forall_forall. intros c _. unfold revenue_at. lra.
Qed.

(** X1. Producing nothing is always allowed, so the model built by [BIM_maxmin]
    is feasible for every price list and no optimal value is negative. *)
Theorem maxmin_feasible_nonneg (costs : list (Q * Q)) :
  (exists rho, feasible (BIM_maxmin costs) rho) /\
  (forall v, optimal_value (BIM_maxmin costs) v -> 0 <= v).
Proof.
  split.
  - exists (plan 0 0 0). apply origin_feasible.
  - intros v (rho & [_ Hmax] & <-).
    specialize (Hmax _ (origin_feasible costs)).
    now rewrite (objective_maxmin costs (plan 0 0 0)), plan_z in Hmax.
Qed.

Lemma maxmin_feasible_nonneg_witness : 0 <= 17500.
Proof.
  apply (proj2 (maxmin_feasible_nonneg scenarios)).
  exists maxmin_optimum. split.
  - exact maxmin_optimum_maximizer.
  - now rewrite objective_maxmin.
Defined.

Lemma revenue_at_bound a b c :
  BIM_region a b ->
  revenue_at a b c <= Rmax 0 (Q2R (fst c)) * 1000 + Rmax 0 (Q2R (snd c)) * 1500.
Proof.
  intros (Ha & Hb & Hs & Hg & _). unfold revenue_at.
  pose proof (Rmax_l 0 (Q2R (fst c))). pose proof (Rmax_r 0 (Q2R (fst c))).
  pose proof (Rmax_l 0 (Q2R (snd c))). pose proof (Rmax_r 0 (Q2R (snd c))).
  nra.
Qed.

(** X2. The objective of [BIM_maxmin costs] is bounded above exactly when the
    price list is not empty. *)
Theorem maxmin_bounded_iff (costs : list (Q * Q)) :
  (exists u, upper_bound (BIM_maxmin costs) u) <-> costs <> [].
Proof.
  split.
  - intros [u Hu] ->.
    specialize (Hu (plan 0 0 (u + 1))).
    rewrite objective_maxmin, plan_z in Hu.
    assert (u + 1 <= u); [| lra].
    apply Hu, feasible_plan. split; [unfold BIM_region; lra | constructor].
  - intros Hne. destruct costs as [| c cs]; [contradiction |].
    exists (Rmax 0 (Q2R (fst c)) * 1000 + Rmax 0 (Q2R (snd c)) * 1500).
    intros rho Hf. rewrite objective_maxmin.
    apply feasible_maxmin in Hf. destruct Hf as [Hr Hrows].
    apply Forall_inv in Hrows.
    pose proof (revenue_at_bound _ _ c Hr). lra.
Qed.

Lemma feasible_maxmin_incl costs costs' rho :
  incl costs costs' ->
  feasible (BIM_maxmin costs') rho -> feasible (BIM_maxmin costs) rho.
Proof.
  intros Hincl. rewrite !feasible_maxmin, !Forall_forall.
  intros [Hr Hrows]. split; [exact Hr |].
  intros c Hin. now apply Hrows, Hincl.
Qed.

(** X3. A longer price list, in any order and with any repetitions, can only
    lower the optimum: if every pair of [costs] occurs in [costs'], the
    feasible set of [BIM_maxmin costs'] lies in that of [BIM_maxmin costs],
    upper bounds carry over, and optimal values are ordered. *)
Theorem maxmin_antitone (costs costs' : list (Q * Q)) :
  incl costs costs' ->
  (forall rho, feasible (BIM_maxmin costs') rho ->
               feasible (BIM_maxmin costs) rho) /\
  (forall u, upper_bound (BIM_maxmin costs) u ->
             upper_bound (BIM_maxmin costs') u) /\
  (forall v v', optimal_value (BIM_maxmin costs) v ->
                optimal_value (BIM_maxmin costs') v' -> v' <= v).
Proof.
  intros Hincl. split; [| split].
  - intros rho. now apply feasible_maxmin_incl.
  - intros u Hu rho Hf. rewrite objective_maxmin, <- (objective_maxmin costs).
    apply Hu. now apply (feasible_maxmin_incl costs costs').
  - intros v v' (rho & [_ Hmax] & <-) (rho' & [Hf' _] & <-).
    rewrite (objective_maxmin costs'), <- (objective_maxmin costs rho').
    apply Hmax. now apply (feasible_maxmin_incl costs costs').
Qed.

Lemma maxmin_antitone_witness :
  feasible (BIM_maxmin [(8, 11); (12, 9)]%Q) maxmin_optimum.
Proof.
  apply (proj1 (maxmin_antitone [(8, 11); (12, 9)]%Q scenarios
                  ltac:(unfold scenarios, incl; cbn; tauto))).
  exact maxmin_optimum_feasible.
Defined.

(** Two price lists with the same feasible points have the same solutions
    and the same optimal values: the objective does not depend on the
    list. *)
Lemma maxmin_same_feasible costs costs' :
  (forall rho, feasible (BIM_maxmin costs) rho <->
               feasible (BIM_maxmin costs') rho) ->
  (forall rho, is_maximizer (BIM_maxmin costs) rho <->
               is_maximizer (BIM_maxmin costs') rho) /\
  (forall v, optimal_value (BIM_maxmin costs) v <->
             optimal_value (BIM_maxmin costs') v).
Proof.
  intros Hf.
  assert (Hm : forall rho, is_maximizer (BIM_maxmin costs) rho <->
                           is_maximizer (BIM_maxmin costs') rho).
  { intros rho. unfold is_maximizer. rewrite Hf.
    split; intros [Hfe Hmax]; (split; [exact Hfe |]); intros rho' Hf';
      rewrite !objective_maxmin;
      [rewrite <- !(objective_maxmin costs) | rewrite <- !(objective_maxmin costs')];
      now apply Hmax, Hf. }
  split; [exact Hm |].
  intros v. unfold optimal_value.
  split; intros (rho & Hrho & Hv); exists rho;
    (split; [now apply Hm |]); rewrite objective_maxmin in *; exact Hv.
Qed.

(** X4. The model depends on the price list only as a set: two lists with the
    same pairs, whatever their order and repetitions, give the same feasible
    points, the same solutions and the same optimal values. *)
Theorem maxmin_same_pairs (costs costs' : list (Q * Q)) :
  incl costs costs' -> incl costs' costs ->
  (forall rho, feasible (BIM_maxmin costs) rho <->
               feasible (BIM_maxmin costs') rho) /\
  (forall rho, is_maximizer (BIM_maxmin costs) rho <->
               is_maximizer (BIM_maxmin costs') rho) /\
  (forall v, optimal_value (BIM_maxmin costs) v <->
             optimal_value (BIM_maxmin costs') v).
Proof.
  intros H1 H2.
  assert (Hf : forall rho, feasible (BIM_maxmin costs) rho <->
                           feasible (BIM_maxmin costs') rho).
  { intros rho. split; now apply feasible_maxmin_incl. }
  split; [exact Hf | now apply maxmin_same_feasible].
Qed.

Lemma maxmin_same_pairs_witness :
  optimal_value (BIM_maxmin ((8, 11) :: (8, 11) :: rev scenarios)%Q) 17500.
Proof.
  apply (proj2 (proj2 (maxmin_same_pairs scenarios
                         ((8, 11) :: (8, 11) :: rev scenarios)%Q
                         ltac:(unfold scenarios, incl; cbn; tauto)
                         ltac:(unfold scenarios, incl; cbn; tauto)))).
  exact maxmin_three_scenarios.
Defined.

(** X5. A price pair that is, in both prices, at least a weighted average of two
    pairs already in the list adds nothing: the plans are non-negative, so
    the new inequality follows from the two old ones. *)
Theorem maxmin_dominated_pair (costs : list (Q * Q)) (c0 c1 c : Q * Q)
    (lam : Q) :
  In c0 costs -> In c1 costs ->
  (0 <= lam)%Q -> (lam <= 1)%Q ->
  (lam * fst c0 + (1 - lam) * fst c1 <= fst c)%Q ->
  (lam * snd c0 + (1 - lam) * snd c1 <= snd c)%Q ->
  (forall rho, feasible (BIM_maxmin (costs ++ [c])) rho <->
               feasible (BIM_maxmin costs) rho) /\
  (forall rho, is_maximizer (BIM_maxmin (costs ++ [c])) rho <->
               is_maximizer (BIM_maxmin costs) rho) /\
  (forall v, optimal_value (BIM_maxmin (costs ++ [c])) v <->
             optimal_value (BIM_maxmin costs) v).
Proof.
  intros H0 H1 Hl0 Hl1 Hfst Hsnd.
  apply Qle_Rle in Hl0, Hl1, Hfst, Hsnd.
  rewrite Q2R_plus, !Q2R_mult, Q2R_minus in Hfst, Hsnd.
  replace (Q2R 0) with 0 in Hl0 by (q2r; lra).
  replace (Q2R 1) with 1 in Hl1, Hfst, Hsnd by (q2r; lra).
  assert (Hf : forall rho, feasible (BIM_maxmin (costs ++ [c])) rho <->
                           feasible (BIM_maxmin costs) rho).
  { intros rho. split; [apply feasible_maxmin_app |].
    rewrite !feasible_maxmin, Forall_app.
    intros [Hr Hrows]. split; [exact Hr | split; [exact Hrows |]].
    constructor; [| constructor].
    rewrite Forall_forall in Hrows.
    pose proof (Hrows _ H0) as Hz0. pose proof (Hrows _ H1) as Hz1.
    destruct Hr as (Ha & Hb & _).
    unfold revenue_at in *.
    set (l := Q2R lam) in *. set (a := rho "x1") in *. set (b := rho "x2") in *.
    set (z := rho "z") in *.
    assert (Hz : z <= l * (Q2R (fst c0) * a + Q2R (snd c0) * b)
                      + (1 - l) * (Q2R (fst c1) * a + Q2R (snd c1) * b)) by nra.
    assert (Ha' : (l * Q2R (fst c0) + (1 - l) * Q2R (fst c1)) * a
                  <= Q2R (fst c) * a) by (apply Rmult_le_compat_r; lra).
    assert (Hb' : (l * Q2R (snd c0) + (1 - l) * Q2R (snd c1)) * b
                  <= Q2R (snd c) * b) by (apply Rmult_le_compat_r; lra).
    lra. }
  split; [exact Hf | now apply maxmin_same_feasible].
Qed.

(** In the notebook's list the pair (11, 10) is at least three quarters of
    (12, 9) plus one quarter of (8, 11): dropping it changes nothing. *)
Lemma maxmin_dominated_pair_witness :
  optimal_value
    (BIM_maxmin ([(12, 9); (8, 11)]%Q ++ [(11, 10)]%Q)%list) 17500 <->
  optimal_value (BIM_maxmin [(12, 9); (8, 11)]%Q) 17500.
Proof.
  apply (proj2 (proj2 (maxmin_dominated_pair [(12, 9); (8, 11)]%Q
                         (12, 9)%Q (8, 11)%Q (11, 10)%Q (3 # 4)%Q
                         ltac:(cbn; tauto) ltac:(cbn; tauto)
                         ltac:(easy) ltac:(easy) ltac:(easy) ltac:(easy)))).
Defined.

(** X6. For a nonempty price list, the solutions of the model are exactly the
    maximin plans with z tight: the plan lies in the region, z equals the
    lowest revenue of the plan over the price pairs, and no plan of the
    region has a higher lowest revenue.  So the number the cell prints as
    revenue is the worst-case revenue of the plan it prints. *)
Theorem maxmin_solutions (costs : list (Q * Q)) (rho : valuation) :
  costs <> [] ->
  (is_maximizer (BIM_maxmin costs) rho <->
   BIM_region (rho "x1") (rho "x2") /\
   rho "z" = worst_case costs (rho "x1") (rho "x2") /\
   forall a b, BIM_region a b ->
     worst_case costs a b <= worst_case costs (rho "x1") (rho "x2")).
Proof.
  intros Hne. split.
  - intros [Hf Hmax].
    destruct (feasible_z_le costs rho Hne Hf) as [Hr Hz].
    assert (Hup : forall a b, BIM_region a b -> worst_case costs a b <= rho "z").
    { intros a b Hab.
      specialize (Hmax (plan a b (worst_case costs a b))).
      rewrite !objective_maxmin, plan_z in Hmax.
      apply Hmax, feasible_z_iff; [exact Hne |]. split; [exact Hab | lra]. }
    split; [exact Hr | split].
    + apply Rle_antisym; [exact Hz | now apply Hup].
    + intros a b Hab. specialize (Hup a b Hab).
      apply Rle_trans with (rho "z"); [exact Hup | exact Hz].
  - intros (Hr & Hz & Hbest). split.
    + apply feasible_maxmin. split; [exact Hr |].
      apply worst_case_ge; [exact Hne | lra].
    + intros rho' Hf'. rewrite !objective_maxmin.
      destruct (feasible_z_le costs rho' Hne Hf') as [Hr' Hz'].
      specialize (Hbest _ _ Hr'). lra.
Qed.

Lemma maxmin_solutions_witness :
  BIM_region (maxmin_optimum "x1") (maxmin_optimum "x2") /\
  maxmin_optimum "z" =
    worst_case scenarios (maxmin_optimum "x1") (maxmin_optimum "x2") /\
  forall a b, BIM_region a b ->
    worst_case scenarios a b <=
    worst_case scenarios (maxmin_optimum "x1") (maxmin_optimum "x2").
Proof.
  exact (proj1 (maxmin_solutions scenarios maxmin_optimum
                  ltac:(unfold scenarios; discriminate))
           maxmin_optimum_maximizer).
Defined.

End MaxminMore.

(** ** Further properties of the models of notebook 2.5 *)

Section FractionalMore.
Import Fractional.
Local Open Scope R_scope.

(** X7. The text of the notebook asks for [t >= 0], the code for [t > 0]; the
    two agree, because the normalization forces [t] into the interval from
    1/1775 to 1/100.  So the strict bound is never active, and the report
    never divides by zero at a feasible point. *)
Theorem over_costs_t_bounds :
  forall rho,
    (feasible BIM_with_revenues_over_costs rho <-> linearized_text rho) /\
    (feasible BIM_with_revenues_over_costs rho ->
       1 / 1775 <= rho "t" <= 1 / 100).
Proof.
  intros rho. rewrite feasible_over_costs. unfold linearized_text.
  split; [split |]; intros H; repeat split; lra.
Qed.

Lemma over_costs_t_bounds_witness : 1 / 1775 <= fractional_optimum "t" <= 1 / 100.
Proof.
  exact (proj2 (over_costs_t_bounds fractional_optimum)
           fractional_optimum_feasible).
Defined.

(** X8. At every feasible point of the linearized model the numbers of the
    report fit together: revenue and cost are those of the recovered plan,
    the cost is 1/t and positive, and the reported value is the model's
    objective and the ratio of the reported revenue to the reported cost. *)
Theorem fractional_report_consistent (rho : valuation) :
  feasible BIM_with_revenues_over_costs rho ->
  let r := BIM_fractional_report rho in
  revenue r = 12 * x1 r + 9 * x2 r /\
  cost r = 7 / 6 * x1 r + 5 / 6 * x2 r + 100 /\
  cost r = 1 / rho "t" /\ 0 < cost r /\
  value r = objective_value BIM_with_revenues_over_costs rho /\
  value r = revenue r / cost r.
Proof.
  intros H. cbv zeta. rewrite fractional_report_fields, objective_over_costs.
  cbn [x1 x2 value revenue cost].
  apply feasible_over_costs in H.
  destruct H as (H1 & H2 & Ht & _ & _ & _ & _ & Hn).
  assert (Hc : (7 / 6 * rho "y1" + 5 / 6 * rho "y2") / rho "t" + 100
               = 1 / rho "t").
  { rewrite <- Hn. field. lra. }
  repeat split.
  - field. lra.
  - field. lra.
  - exact Hc.
  - rewrite Hc. apply Rdiv_lt_0_compat; lra.
  - rewrite Hn. field.
  - rewrite Hc, Hn. field. lra.
Qed.

Lemma fractional_report_consistent_witness :
  let r := BIM_fractional_report fractional_optimum in
  revenue r = 12 * x1 r + 9 * x2 r /\
  cost r = 7 / 6 * x1 r + 5 / 6 * x2 r + 100 /\
  cost r = 1 / fractional_optimum "t" /\ 0 < cost r /\
  value r = objective_value BIM_with_revenues_over_costs fractional_optimum /\
  value r = revenue r / cost r.
Proof.
  exact (fractional_report_consistent fractional_optimum
           fractional_optimum_feasible).
Defined.

Lemma linear_optimum_feasible :
  feasible BIM_with_revenues_minus_costs linear_optimum.
Proof.
  apply feasible_minus_costs. unfold BIM_region, linear_optimum. cbn. lra.
Qed.

Lemma linear_optimum_maximizer :
  is_maximizer BIM_with_revenues_minus_costs linear_optimum.
Proof.
  split; [exact linear_optimum_feasible |].
  intros rho H. apply feasible_minus_costs in H. unfold BIM_region in H.
  rewrite !objective_minus_costs. unfold linear_optimum. cbn. lra.
Qed.

Lemma minus_costs_maximizer_unique rho :
  is_maximizer BIM_with_revenues_minus_costs rho ->
  rho "x1" = 650 /\ rho "x2" = 1100.
Proof.
  intros [Hf Hmax]. specialize (Hmax _ linear_optimum_feasible).
  rewrite !objective_minus_costs in Hmax.
  unfold linear_optimum in Hmax. cbn in Hmax.
  apply feasible_minus_costs in Hf. unfold BIM_region in Hf. lra.
Qed.

Lemma linear_report_fields rho :
  BIM_linear_report rho =
  mk_report (rho "x1") (rho "x2")
    (12 * rho "x1" + 9 * rho "x2"
       - (7 / 6 * rho "x1" + 5 / 6 * rho "x2") - 100)
    (12 * rho "x1" + 9 * rho "x2")
    (7 / 6 * rho "x1" + 5 / 6 * rho "x2" + 100).
Proof.
  unfold BIM_linear_report. open_model. cbn. q2r. f_equal; lra.
Qed.

(** X9. Whatever optimal solution the solver returns for the revenue-minus-cost
    model, the first cell of notebook 2.5 reports the plan (650, 1100), the
    value 15925, the revenue 17700 and the cost 1775. *)
Theorem linear_report_at_optimum (rho : valuation) :
  is_maximizer BIM_with_revenues_minus_costs rho ->
  BIM_linear_report rho = mk_report 650 1100 15925 17700 1775.
Proof.
  intros H. destruct (minus_costs_maximizer_unique rho H) as [H1 H2].
  rewrite linear_report_fields, H1, H2. f_equal; lra.
Qed.

Lemma linear_report_at_optimum_witness :
  BIM_linear_report linear_optimum = mk_report 650 1100 15925 17700 1775.
Proof. exact (linear_report_at_optimum linear_optimum linear_optimum_maximizer). Defined.

(** X10. Whatever optimal solution the solver returns for the linearized
    fractional model, the second cell reports the plan (250, 1500), the
    value 1980/197, the revenue 16500 and the cost 4925/3, which prints as
    1641.67. *)
Theorem fractional_report_at_optimum (rho : valuation) :
  is_maximizer BIM_with_revenues_over_costs rho ->
  BIM_fractional_report rho =
    mk_report 250 1500 (1980 / 197) 16500 (4925 / 3) /\
  1641.665 <= 4925 / 3 < 1641.675.
Proof.
  intros H. destruct (over_costs_maximizer_unique rho H) as (H1 & H2 & Ht).
  split; [| lra].
  rewrite fractional_report_fields, H1, H2, Ht. f_equal; field_simplify; lra.
Qed.

Lemma fractional_report_at_optimum_witness :
  BIM_fractional_report fractional_optimum =
    mk_report 250 1500 (1980 / 197) 16500 (4925 / 3) /\
  1641.665 <= 4925 / 3 < 1641.675.
Proof.
  exact (fractional_report_at_optimum fractional_optimum
           fractional_optimum_maximizer).
Defined.

(** X11. The two objectives of notebook 2.5 choose different plans, and each
    plan is strictly worse under the other objective: the efficiency of the
    profit-optimal plan is 17700/1775, about 9.972, below the optimal
    efficiency, and the profit of the efficiency-optimal plan is below
    15925. *)
Theorem objectives_disagree (rho1 rho2 : valuation) :
  is_maximizer BIM_with_revenues_minus_costs rho1 ->
  is_maximizer BIM_with_revenues_over_costs rho2 ->
  let r1 := BIM_linear_report rho1 in
  let r2 := BIM_fractional_report rho2 in
  (x1 r1, x2 r1) <> (x1 r2, x2 r2) /\
  efficiency (x1 r1) (x2 r1) = revenue r1 / cost r1 /\
  revenue r1 / cost r1 = 17700 / 1775 /\
  9.9715 <= 17700 / 1775 < 9.9725 /\
  revenue r1 / cost r1 < value r2 /\
  revenue r2 - cost r2 < value r1.
Proof.
  intros H1 H2. cbv zeta.
  rewrite (linear_report_at_optimum rho1 H1).
  destruct (fractional_report_at_optimum rho2 H2) as [-> _].
  cbn [x1 x2 value revenue cost]. unfold efficiency.
  repeat split; try lra.
  intros Heq. inversion Heq. lra.
Qed.

Lemma objectives_disagree_witness :
  let r1 := BIM_linear_report linear_optimum in
  let r2 := BIM_fractional_report fractional_optimum in
  (x1 r1, x2 r1) <> (x1 r2, x2 r2) /\
  efficiency (x1 r1) (x2 r1) = revenue r1 / cost r1 /\
  revenue r1 / cost r1 = 17700 / 1775 /\
  9.9715 <= 17700 / 1775 < 9.9725 /\
  revenue r1 / cost r1 < value r2 /\
  revenue r2 - cost r2 < value r1.
Proof.
  exact (objectives_disagree linear_optimum fractional_optimum
           linear_optimum_maximizer fractional_optimum_maximizer).
Defined.

End FractionalMore.

(** ** What the notebooks print *)

Section NotebookMore.
Import Notebook.
Local Open Scope list_scope.

Lemma printed_app tr tr' : printed (tr ++ tr') = printed tr ++ printed tr'.
Proof.
  induction tr as [| e tr IH]; [reflexivity |].
  destruct e; cbn [app printed]; now rewrite IH.
Qed.

Lemma printed_preamble w : printed (preamble_trace w) = [].
Proof. unfold preamble_trace. destruct (colab w); reflexivity. Qed.

(** X12. With the solver available and returning an optimal solution of the
    model it is given, notebook 2.4 ends without error and prints the plan
    (1750/3, 3500/3) and then the revenue 17500. *)
Theorem maxmin_notebook_output (w : world) :
  available w = true ->
  is_maximizer (Maxmin.BIM_maxmin Maxmin.scenarios)
               (solution w (Maxmin.BIM_maxmin Maxmin.scenarios)) ->
  snd (run (notebook_maxmin w)) = inr tt /\
  printed (fst (run (notebook_maxmin w))) =
    [[1750 / 3; 3500 / 3]; [17500]]%R.
Proof.
  intros Hav Hopt. rewrite run_maxmin, Hav. cbn [fst snd].
  split; [reflexivity |].
  rewrite printed_app, printed_preamble. unfold maxmin_trace.
  cbn [app printed].
  destruct (maxmin_maximizer_unique _ Hopt) as (-> & -> & ->).
  reflexivity.
Qed.

Lemma oracle_maxmin :
  is_maximizer (Maxmin.BIM_maxmin Maxmin.scenarios)
               (solution oracle (Maxmin.BIM_maxmin Maxmin.scenarios)).
Proof. exact maxmin_optimum_maximizer. Qed.

Lemma oracle_linear :
  is_maximizer Fractional.BIM_with_revenues_minus_costs
               (solution oracle Fractional.BIM_with_revenues_minus_costs).
Proof. exact linear_optimum_maximizer. Qed.

Lemma oracle_fractional :
  is_maximizer Fractional.BIM_with_revenues_over_costs
               (solution oracle Fractional.BIM_with_revenues_over_costs).
Proof. exact fractional_optimum_maximizer. Qed.

Lemma maxmin_notebook_output_witness :
  snd (run (notebook_maxmin oracle)) = inr tt /\
  printed (fst (run (notebook_maxmin oracle))) =
    [[1750 / 3; 3500 / 3]; [17500]]%R.
Proof. exact (maxmin_notebook_output oracle eq_refl oracle_maxmin). Defined.

(** At a feasible answer to the linearized fractional model no divisor of
    the second report is zero. *)
Lemma feasible_no_division_by_zero w :
  feasible Fractional.BIM_with_revenues_over_costs
           (solution w Fractional.BIM_with_revenues_over_costs) ->
  divides_by_zero w = false.
Proof.
  intros H. apply feasible_over_costs in H. unfold divides_by_zero. cbv zeta.
  rewrite !is_zero_false; [reflexivity | lra | lra].
Qed.

(** X13. With the solver available and returning an optimal solution of each
    model it is given, notebook 2.5 ends without error and prints two lines:
    plan (650, 1100), value 15925, revenue 17700, cost 1775, and then plan
    (250, 1500), value 1980/197, revenue 16500, cost 4925/3. *)
Theorem fractional_notebook_output (w : world) :
  available w = true ->
  is_maximizer Fractional.BIM_with_revenues_minus_costs
               (solution w Fractional.BIM_with_revenues_minus_costs) ->
  is_maximizer Fractional.BIM_with_revenues_over_costs
               (solution w Fractional.BIM_with_revenues_over_costs) ->
  snd (run (notebook_fractional w)) = inr tt /\
  printed (fst (run (notebook_fractional w))) =
    [[650; 1100; 15925; 17700; 1775];
     [250; 1500; 1980 / 197; 16500; 4925 / 3]]%R.
Proof.
  intros Hav H1 H2.
  rewrite run_fractional, Hav, (feasible_no_division_by_zero w (proj1 H2)).
  cbn [fst snd].
  split; [reflexivity |].
  rewrite printed_app, printed_preamble. unfold fractional_trace.
  cbv zeta. cbn [app printed].
  rewrite (linear_report_at_optimum _ H1).
  destruct (fractional_report_at_optimum _ H2) as [-> _].
  reflexivity.
Qed.

Lemma fractional_notebook_output_witness :
  snd (run (notebook_fractional oracle)) = inr tt /\
  printed (fst (run (notebook_fractional oracle))) =
    [[650; 1100; 15925; 17700; 1775];
     [250; 1500; 1980 / 197; 16500; 4925 / 3]]%R.
Proof.
  exact (fractional_notebook_output oracle eq_refl oracle_linear
           oracle_fractional).
Defined.

(** X14. In every run of either notebook, the packages pyomo and highspy are
    installed, in this order, exactly when Colab is detected, and nothing is
    printed when the solver is unavailable.  When it is available, notebook
    2.4 prints two lines; notebook 2.5 prints two lines and ends without
    error unless a divisor of its second report is zero at the solver's
    answer, in which case it prints the first line only and ends with a
    ZeroDivisionError. *)
Theorem installs_and_prints (w : world) :
  (forall cells, In cells [notebook_maxmin w; notebook_fractional w] ->
     installs (fst (run cells)) =
       (if colab w then ["pyomo"; "highspy"]%string else []) /\
     (available w = false -> printed (fst (run cells)) = [])) /\
  (available w = true ->
     List.length (printed (fst (run (notebook_maxmin w)))) = 2%nat /\
     snd (run (notebook_maxmin w)) = inr tt) /\
  (available w = true ->
     List.length (printed (fst (run (notebook_fractional w)))) =
       (if divides_by_zero w then 1%nat else 2%nat) /\
     snd (run (notebook_fractional w)) =
       (if divides_by_zero w then inl ZeroDivisionError else inr tt)).
Proof.
  split; [| split].
  - intros cells [<- | [<- | []]].
    + rewrite run_maxmin. destruct w as [[] [] msg sol]; split;
        try reflexivity; intros; try discriminate; reflexivity.
    + rewrite run_fractional.
      destruct (divides_by_zero w); destruct w as [[] [] msg sol]; split;
        try reflexivity; intros; try discriminate; reflexivity.
  - intros Hav. rewrite run_maxmin, Hav. cbn [fst snd].
    rewrite printed_app, printed_preamble. split; reflexivity.
  - intros Hav. rewrite run_fractional, Hav.
    destruct (divides_by_zero w); cbn [fst snd];
      rewrite printed_app, printed_preamble; split; reflexivity.
Qed.

Lemma colab_with_solver_divides : divides_by_zero colab_with_solver = true.
Proof.
  unfold divides_by_zero. cbv zeta. rewrite is_zero_true; reflexivity.
Qed.

(** On Colab, with a solver that answers t = 0, notebook 2.5 installs both
    packages, prints its first line and stops at the division. *)
Lemma installs_and_prints_witness :
  installs (fst (run (notebook_fractional colab_with_solver))) =
    ["pyomo"; "highspy"]%string /\
  List.length (printed (fst (run (notebook_fractional colab_with_solver)))) =
    1%nat /\
  snd (run (notebook_fractional colab_with_solver)) = inl ZeroDivisionError.
Proof.
  pose proof (installs_and_prints colab_with_solver) as (Hi & _ & Hp).
  specialize (Hi (notebook_fractional colab_with_solver)
                (or_intror (or_introl eq_refl))).
  specialize (Hp eq_refl). rewrite colab_with_solver_divides in Hp.
  exact (conj (proj1 Hi) Hp).
Defined.

End NotebookMore.
